(** * The documentation search index of the [hebrides] crate

    [target/doc/search-index.js] is one statement,
    [var searchIndex = JSON.parse('...')], followed by two guarded hand-offs
    of the parsed value.  The parsed value is transcribed below as a JSON
    tree, key by key and in the order of the text, and the parallel lists it
    holds are read back the way a documentation browser reads them: item
    [k] has kind [t[k]], name [n[k]], description [d[k]], parent
    [p[i[k] - 1]] (none when [i[k]] is 0) and function signature [f[k]],
    whose numbers are 1-based positions in the type table [p]. *)

From Stdlib Require Import Ascii String List Arith Bool Lia Sorted.
Import ListNotations.
Open Scope string_scope.

(** ** JSON values *)

Module Json.

Unset Elimination Schemes.
Inductive json : Type :=
| JNum (n : nat)
| JStr (s : string)
| JArr (l : list json)
| JObj (m : list (string * json)).
Set Elimination Schemes.

(** Property lookup.  [JSON.parse] keeps the last binding of a repeated
    key, so the search runs on the tail first. *)
Fixpoint assoc_last {A : Type} (k : string) (m : list (string * A)) : option A :=
  match m with
  | [] => None
  | (k', v) :: m' =>
      match assoc_last k m' with
      | Some w => Some w
      | None => if String.eqb k k' then Some v else None
      end
  end.

Definition get (k : string) (j : json) : option json :=
  match j with
  | JObj m => assoc_last k m
  | _ => None
  end.

(** [Object.keys]: the own keys, each once, in order of first appearance. *)
Definition keys (j : json) : list string :=
  match j with
  | JObj m => nodup string_dec (map fst m)
  | _ => []
  end.

Definition as_num (j : json) : option nat :=
  match j with JNum n => Some n | _ => None end.

Definition as_str (j : json) : option string :=
  match j with JStr s => Some s | _ => None end.

Definition as_arr (j : json) : option (list json) :=
  match j with JArr l => Some l | _ => None end.

(** All-or-nothing map over a list. *)
Definition mapM {A B : Type} (g : A -> option B) : list A -> option (list B) :=
  fix go (l : list A) : option (list B) :=
    match l with
    | [] => Some []
    | x :: l' =>
        match g x, go l' with
        | Some y, Some ys => Some (y :: ys)
        | _, _ => None
        end
    end.

Definition bind {A B : Type} (o : option A) (k : A -> option B) : option B :=
  match o with Some x => k x | None => None end.

Definition arr_of {A : Type} (g : json -> option A) (j : json) : option (list A) :=
  bind (as_arr j) (mapM g).

End Json.
Export Json.

Coercion JNum : nat >-> json.
Coercion JStr : string >-> json.

Declare Scope json_scope.
Delimit Scope json_scope with J.
Bind Scope json_scope with json.
Notation "[ ]" := (JArr nil) : json_scope.
Notation "[ x ]" := (JArr (cons (x : json) nil)) : json_scope.
Notation "[ x ; y ; .. ; z ]" :=
  (JArr (cons (x : json) (cons (y : json) .. (cons (z : json) nil) ..))) : json_scope.

(** ** The parsed text *)

Module Index.

Definition hebrides_crate : json :=
  JObj
   [("doc", JStr "Implementations for real and complex numbers.");
    ("t",
     [ 3; 3; 3; 3; 18; 18; 18; 3; 18; 18; 11; 11; 11; 11; 11; 11; 11; 11; 11; 11; 11; 11; 11; 11;
       11; 11; 11; 11; 11; 11; 11; 11; 11; 11; 11; 11; 11; 11; 11; 11; 11; 11; 11; 11; 11; 11; 11;
       11; 11; 11; 11; 11; 11; 11; 11; 11; 11; 11; 11; 11; 11; 11; 11; 11; 11; 11; 11; 11; 11; 11;
       11; 11; 11; 11; 11; 11; 11; 11; 11; 11; 11; 11; 11; 11; 11; 11; 11; 11; 11; 11; 11; 11; 11;
       11; 11; 11; 11; 11; 11; 11; 11; 11; 11; 11; 11; 11; 11; 11; 11; 11; 11; 11; 11; 11; 11; 11;
       11; 11; 11; 11; 11; 11; 11; 11; 11; 11; 11; 11; 11; 11; 11; 11; 11; 11; 11; 11; 11; 11; 11;
       11; 11; 11; 11; 11; 11; 11; 11; 11; 11; 11; 11; 11 ]%J);
    ("n",
     [ "Angle"; "Complex"; "ConversionError"; "DomainError"; "I"; "ONE"; "ONE"; "Real"; "ZERO";
       "ZERO"; "abs"; "abs"; "add"; "add"; "arccos"; "arccos"; "arccosh"; "arccosh"; "arcsin";
       "arcsin"; "arcsinh"; "arcsinh"; "arctan"; "arctan"; "arctanh"; "arctanh"; "azimuthal";
       "borrow"; "borrow"; "borrow"; "borrow"; "borrow"; "borrow_mut"; "borrow_mut"; "borrow_mut";
       "borrow_mut"; "borrow_mut"; "ceil"; "clone"; "clone"; "clone"; "clone"; "clone_into";
       "clone_into"; "clone_into"; "clone_into"; "cmp"; "cos"; "cos"; "cosh"; "cosh"; "div"; "div";
       "eq"; "eq"; "exp"; "exp"; "floor"; "fmt"; "fmt"; "fmt"; "fmt"; "fmt"; "fmt"; "fmt"; "fmt";
       "from"; "from"; "from"; "from"; "from"; "from"; "from"; "from"; "from"; "from"; "from";
       "from"; "from"; "from"; "from"; "from_degrees"; "from_radians"; "into"; "into"; "into";
       "into"; "into"; "into_degrees"; "into_radians"; "is_imaginary"; "is_real"; "ln"; "ln";
       "log"; "logf"; "logi"; "mul"; "mul"; "neg"; "neg"; "negative"; "new"; "new"; "norm";
       "partial_cmp"; "positive"; "pow"; "powf"; "powi"; "sin"; "sin"; "sinh"; "sinh"; "sqrt";
       "sqrt"; "squared"; "squared"; "sub"; "sub"; "tan"; "tan"; "tanh"; "tanh"; "to_complex";
       "to_degrees"; "to_owned"; "to_owned"; "to_owned"; "to_owned"; "to_radians"; "to_string";
       "to_string"; "to_string"; "to_string"; "try_from"; "try_from"; "try_from"; "try_from";
       "try_from"; "try_from"; "try_into"; "try_into"; "try_into"; "try_into"; "try_into";
       "type_id"; "type_id"; "type_id"; "type_id"; "type_id"; "value" ]%J);
    ("q",
     [ "hebrides"; ""; ""; ""; ""; ""; ""; ""; ""; ""; ""; ""; ""; ""; ""; ""; ""; ""; ""; ""; "";
       ""; ""; ""; ""; ""; ""; ""; ""; ""; ""; ""; ""; ""; ""; ""; ""; ""; ""; ""; ""; ""; ""; "";
       ""; ""; ""; ""; ""; ""; ""; ""; ""; ""; ""; ""; ""; ""; ""; ""; ""; ""; ""; ""; ""; ""; "";
       ""; ""; ""; ""; ""; ""; ""; ""; ""; ""; ""; ""; ""; ""; ""; ""; ""; ""; ""; ""; ""; ""; "";
       ""; ""; ""; ""; ""; ""; ""; ""; ""; ""; ""; ""; ""; ""; ""; ""; ""; ""; ""; ""; ""; ""; "";
       ""; ""; ""; ""; ""; ""; ""; ""; ""; ""; ""; ""; ""; ""; ""; ""; ""; ""; ""; ""; ""; ""; "";
       ""; ""; ""; ""; ""; ""; ""; ""; ""; ""; ""; ""; ""; ""; ""; "" ]%J);
    ("d",
     [ "Representation of angular values."; "Representation of complex numbers";
       "Error type for errors involving conversion between values.";
       "Error type for errors involving domain restrictions.";
       "shortcut for encoding the imaginary unit as …"; "shortcut for describing Real::new(0.0)";
       "shortcut for encoding 1.0 as Complex::new(Real::ONE, …"; "Representation of real numbers.";
       "shortcut for describing Real::new(1.0)";
       "shortcut for encoding 0.0 as Complex::new(Real::ZERO, …";
       "Absolute value of <code>self</code>."; "Absolute value (aka. complex norm)."; ""; "";
       "Arccosine."; "Complex arccos."; "Hyperbolic arccosine.";
       "Complex inverse hyperbolic cosine."; "Arcsine."; "Complex arcsin."; "Hyperbolic arcsine.";
       "Complex inverse hyperbolic sine."; "Arctangent."; "Complex arctan.";
       "Hyperbolic arctangent."; "Complex inverse hyperbolic tangent."; "Azimuthal angle."; ""; "";
       ""; ""; ""; ""; ""; ""; ""; ""; "Returns the ceiling of <code>self</code>."; ""; ""; ""; "";
       ""; ""; ""; ""; ""; "Cosine."; "Complex cosine."; "Hyperbolic cosine.";
       "Complex hyperbolic cosine."; ""; ""; ""; ""; "e to the power of <code>self</code>.";
       "Complex exponentiation."; "Returns the floor of <code>self</code>."; ""; ""; ""; ""; "";
       ""; ""; ""; "Returns the argument unchanged."; "Returns the argument unchanged.";
       "Returns the argument unchanged."; ""; ""; ""; ""; ""; ""; ""; ""; ""; "";
       "Returns the argument unchanged."; "Returns the argument unchanged.";
       "Constructs an Angle from a given value in degrees";
       "Constructs an Angle from a given value in radians"; "Calls <code>U::from(self)</code>.";
       "Calls <code>U::from(self)</code>."; "Calls <code>U::from(self)</code>.";
       "Calls <code>U::from(self)</code>."; "Calls <code>U::from(self)</code>.";
       "Converts a <code>value</code> in radians into a value in degrees";
       "Converts a <code>value</code> in degrees into a value in radians";
       "Returns whether or not <code>self</code> is imaginary.";
       "Returns whether or not <code>self</code> is real."; "Natural logarithm.";
       "Complex natural logarithm."; "Logarithm with base ‘base’."; "Logarithm with base ‘base’.";
       "Logarithm with base ‘base’."; ""; ""; ""; "";
       "Whether or not <code>self</code> is negative."; "Constructs a Real from an f64.";
       "Constructs a Complex from two f64 values"; "Complex norm."; "";
       "Whether or not <code>self</code> is positive.";
       "<code>self</code> to the power of <code>power</code>.";
       "<code>self</code> to the power of <code>power</code>.";
       "<code>self</code> to the power of <code>power</code>."; "Sine."; "Complex sine.";
       "Hyperbolic sine."; "Complex hyperbolic sine.";
       "Returns the square root of <code>self</code>.";
       "Returns the square root of <code>self</code>."; "Returns the square of <code>self</code>.";
       "Returns <code>self</code> squared."; ""; ""; "Tangent."; "Complex tangent.";
       "Hyperbolic tangent."; "Complex hyperbolic tangent.";
       "Constructs a <code>Complex</code> from <code>self</code>.";
       "Consumes <code>self</code>, returning a value in degrees."; ""; ""; ""; "";
       "Consumes <code>self</code>, returning a value in radians."; ""; ""; ""; ""; ""; ""; ""; "";
       ""; ""; ""; ""; ""; ""; ""; ""; ""; ""; ""; "";
       "Returns a copy of <code>self</code> as an f64." ]%J);
    ("i",
     [ 0; 0; 0; 0; 2; 1; 2; 0; 1; 2; 1; 2; 1; 2; 1; 2; 1; 2; 1; 2; 1; 2; 1; 2; 1; 2; 2; 3; 4; 6; 1;
       2; 3; 4; 6; 1; 2; 1; 4; 6; 1; 2; 4; 6; 1; 2; 1; 1; 2; 1; 2; 1; 2; 1; 2; 1; 2; 1; 4; 4; 6; 6;
       1; 1; 2; 2; 3; 4; 6; 1; 1; 1; 1; 1; 1; 1; 1; 1; 1; 1; 2; 3; 3; 3; 4; 6; 1; 2; 3; 3; 2; 2; 1;
       2; 1; 1; 1; 1; 2; 1; 2; 1; 1; 2; 2; 1; 1; 1; 1; 1; 1; 2; 1; 2; 1; 2; 1; 2; 1; 2; 1; 2; 1; 2;
       1; 3; 4; 6; 1; 2; 3; 4; 6; 1; 2; 3; 4; 6; 1; 1; 2; 3; 4; 6; 1; 2; 3; 4; 6; 1; 2; 1 ]%J);
    ("f",
     [ 0; 0; 0; 0; 0; 0; 0; 0; 0; 0; [1; 1]; [2; 2]; [[1; 1]; 1]; [[2; 2]; 2]; [1; [[5; [3; 4]]]];
       [2; 2]; [1; [[5; [3; 4]]]]; [2; 2]; [1; [[5; [3; 4]]]]; [2; 2]; [1; 3]; [2; 2]; [1; 3];
       [2; 2]; [1; [[5; [3; 4]]]]; [2; 2]; [2; 3]; [[]]; [[]]; [[]]; [[]]; [[]]; [[]]; [[]]; [[]];
       [[]]; [[]]; [1; 1]; [4; 4]; [6; 6]; [1; 1]; [2; 2]; [[]]; [[]]; [[]]; [[]]; [[1; 1]; 7];
       [1; 1]; [2; 2]; [1; 1]; [2; 2]; [[1; 1]; 1]; [[2; 2]; 2]; [[1; 1]; 8]; [[2; 2]; 8]; [1; 1];
       [2; 2]; [1; 1]; [[4; 9]; 10]; [[4; 9]; 10]; [[6; 9]; 10]; [[6; 9]; 10]; [[1; 9]; 10];
       [[1; 9]; 10]; [[2; 9]; 10]; [[2; 9]; 10]; [[]]; [[]]; [[]]; [11; 1]; [12; 1]; [13; 1];
       [14; 1]; [15; 1]; [16; 1]; [17; 1]; [18; 1]; [19; 1]; [20; 1]; [[]]; [[]]; [18; 3]; [18; 3];
       [[]]; [[]]; [[]]; [[]]; [[]]; [18; 18]; [18; 18]; [2; 8]; [2; 8]; [1; [[5; [1; 4]]]];
       [2; 2]; [[1; 1]; [[5; [1; 4]]]]; [[1; 18]; [[5; [1; 4]]]]; [[1; 12]; [[5; [1; 4]]]];
       [[1; 1]; 1]; [[2; 2]; 2]; [1; 1]; [2; 2]; [1; 8]; [18; 1]; [[18; 18]; 2]; [2; 1];
       [[1; 1]; [[21; [7]]]]; [1; 8]; [[1; 1]; 1]; [[1; 18]; [[5; [1; 4]]]]; [[1; 12]; 1]; [1; 1];
       [2; 2]; [1; 1]; [2; 2]; [1; [[5; [1; 4]]]]; [2; 2]; [1; 1]; [2; 2]; [[1; 1]; 1];
       [[2; 2]; 2]; [1; 1]; [2; 2]; [1; 1]; [2; 2]; [1; 2]; [3; 18]; [[]]; [[]]; [[]]; [[]];
       [3; 18]; [[]; 22]; [[]; 22]; [[]; 22]; [[]; 22]; [[]; 5]; [[]; 5]; [[]; 5];
       [2; [[5; [1; 6]]]]; [[]; 5]; [[]; 5]; [[]; 5]; [[]; 5]; [[]; 5]; [[]; 5]; [[]; 5]; [[]; 23];
       [[]; 23]; [[]; 23]; [[]; 23]; [[]; 23]; [1; 18] ]%J);
    ("p",
     [ [3; "Real"]; [3; "Complex"]; [3; "Angle"]; [3; "DomainError"]; [4; "Result"];
       [3; "ConversionError"]; [4; "Ordering"]; [15; "bool"]; [3; "Formatter"]; [6; "Result"];
       [15; "i32"]; [15; "i64"]; [15; "u16"]; [15; "f32"]; [15; "u64"]; [15; "u8"]; [15; "i8"];
       [15; "f64"]; [15; "u32"]; [15; "i16"]; [4; "Option"]; [3; "String"]; [3; "TypeId"] ]%J)
   ].

Definition searchIndex : json := JObj [("hebrides", hebrides_crate)].

(** The two statements after the parse hand the value over: to
    [window.initSearch] when the script runs in a page that defines it, and
    to [exports.searchIndex] when it is loaded as a module. *)
Record host : Type := { has_window : bool; has_initSearch : bool; has_exports : bool }.

Inductive effect : Type :=
| InitSearch (idx : json)
| SetExport (field : string) (idx : json).

Definition run (h : host) : list effect :=
  (if has_window h && has_initSearch h then [InitSearch searchIndex] else [])
  ++ (if has_exports h then [SetExport "searchIndex" searchIndex] else []).

End Index.
Export Index.

(** ** Reading the index *)

Module Reader.

(** An entry of the type table [p] is a pair [[kind, name]]. *)
Record path : Type := { path_ty : nat; path_name : string }.

Definition read_path (j : json) : option path :=
  match j with
  | JArr [JNum k; JStr s] => Some {| path_ty := k; path_name := s |}
  | _ => None
  end.

(** A type of a signature: a position in [p], with its generic arguments.
    A bare number stands for a type without generics, a pair
    [[number, [generics]]] for one with them. *)
Unset Elimination Schemes.
Inductive ty : Type := Ty (idx : nat) (generics : list ty).
Set Elimination Schemes.

Fixpoint read_type (j : json) : option ty :=
  match j with
  | JNum k => Some (Ty k [])
  | JArr [JNum k; JArr gs] => option_map (Ty k) (mapM read_type gs)
  | _ => None
  end.

(** One side of a signature: a bare number is a single type, an array is
    a list of types. *)
Definition read_types (j : json) : option (list ty) :=
  match j with
  | JNum k => Some [Ty k []]
  | JArr l => mapM read_type l
  | _ => None
  end.

Record fnsig : Type := { inputs : list ty; output : list ty }.

(** An entry of [f]: the number 0 for an item that is not a function,
    otherwise [[inputs]] or [[inputs, output]].  The outer [option] is
    the failure of the reading, the inner one the absence of a signature. *)
Definition read_sig (j : json) : option (option fnsig) :=
  match j with
  | JNum 0 => Some None
  | JArr [a] =>
      option_map (fun ins => Some {| inputs := ins; output := [] |}) (read_types a)
  | JArr [a; b] =>
      match read_types a, read_types b with
      | Some ins, Some out => Some (Some {| inputs := ins; output := out |})
      | _, _ => None
      end
  | _ => None
  end.

(** The value stored under a crate key, field by field. *)
Record crate : Type := {
  idx_doc : string;
  idx_t : list nat;
  idx_n : list string;
  idx_q : list string;
  idx_d : list string;
  idx_i : list nat;
  idx_f : list (option fnsig);
  idx_p : list path
}.

Definition read_crate (j : json) : option crate :=
  bind (bind (get "doc" j) as_str) (fun doc =>
  bind (bind (get "t" j) (arr_of as_num)) (fun t =>
  bind (bind (get "n" j) (arr_of as_str)) (fun n =>
  bind (bind (get "q" j) (arr_of as_str)) (fun q =>
  bind (bind (get "d" j) (arr_of as_str)) (fun d =>
  bind (bind (get "i" j) (arr_of as_num)) (fun i =>
  bind (bind (get "f" j) (arr_of read_sig)) (fun f =>
  bind (bind (get "p" j) (arr_of read_path)) (fun p =>
  Some {| idx_doc := doc; idx_t := t; idx_n := n; idx_q := q;
          idx_d := d; idx_i := i; idx_f := f; idx_p := p |})))))))).

(** One documented item: the [k]-th entries of the parallel lists. *)
Record row : Type := {
  row_ty : nat;
  row_name : string;
  row_desc : string;
  row_parent : nat;
  row_sig : option fnsig
}.

Fixpoint zip_rows (ts : list nat) (ns ds : list string) (ps : list nat)
    (fs : list (option fnsig)) : list row :=
  match ts, ns, ds, ps, fs with
  | k :: ts', s :: ns', e :: ds', a :: ps', g :: fs' =>
      {| row_ty := k; row_name := s; row_desc := e; row_parent := a; row_sig := g |}
        :: zip_rows ts' ns' ds' ps' fs'
  | _, _, _, _, _ => []
  end.

Definition rows_of (c : crate) : list row :=
  zip_rows (idx_t c) (idx_n c) (idx_d c) (idx_i c) (idx_f c).

(** Resolution of the 1-based positions against the type table; position 0
    names nothing. *)
Definition type_name (p : list path) (k : nat) : option string :=
  match k with
  | 0 => None
  | S k' => option_map path_name (nth_error p k')
  end.

Unset Elimination Schemes.
Inductive rty : Type := RTy (name : string) (args : list rty).
Set Elimination Schemes.

Fixpoint resolve (p : list path) (a : ty) : option rty :=
  match a with
  | Ty k gs =>
      match type_name p k, mapM (resolve p) gs with
      | Some s, Some rs => Some (RTy s rs)
      | _, _ => None
      end
  end.

(** A signature with its types named: inputs and output. *)
Definition signature : Type := (list rty * list rty)%type.

Definition resolve_sig (p : list path) (g : fnsig) : option signature :=
  match mapM (resolve p) (inputs g), mapM (resolve p) (output g) with
  | Some ins, Some out => Some (ins, out)
  | _, _ => None
  end.

(** Every position mentioned by a type, generics included. *)
Fixpoint ty_indices (a : ty) : list nat :=
  match a with
  | Ty k gs => k :: flat_map ty_indices gs
  end.

Definition sig_indices (g : fnsig) : list nat :=
  flat_map ty_indices (inputs g) ++ flat_map ty_indices (output g).

(** The error side of a signature whose output is one [Result<T, E>]. *)
Definition error_component (s : signature) : option rty :=
  match snd s with
  | [RTy r [_; e]] => if String.eqb r "Result" then Some e else None
  | _ => None
  end.

End Reader.
Export Reader.

(** ** The [hebrides] crate as read from the index *)

Definition empty_crate : crate :=
  {| idx_doc := EmptyString; idx_t := []; idx_n := []; idx_q := []; idx_d := [];
     idx_i := []; idx_f := []; idx_p := [] |}.

Definition hebrides : crate :=
  match bind (get "hebrides" searchIndex) read_crate with
  | Some c => c
  | None => empty_crate
  end.

Definition rows : list row := rows_of hebrides.

Definition parent_name (r : row) : option string :=
  type_name (idx_p hebrides) (row_parent r).

Definition row_signature (r : row) : option signature :=
  bind (row_sig r) (resolve_sig (idx_p hebrides)).

Definition opt_string_eqb (o : option string) (s : string) : bool :=
  match o with Some s' => String.eqb s' s | None => false end.

(** The item named [name] whose parent type is [parent]. *)
Definition is_member (parent name : string) (r : row) : bool :=
  opt_string_eqb (parent_name r) parent && String.eqb (row_name r) name.

(** The signatures recorded for [parent::name], in index order. *)
Definition signatures_of (parent name : string) : list (option signature) :=
  map row_signature (filter (is_member parent name) rows).

(** Names of the types that occur in the statements below. *)
Definition T (s : string) : rty := RTy s [].
Definition Result_ (a e : rty) : rty := RTy "Result" [a; e].
Definition Option_ (a : rty) : rty := RTy "Option" [a].

(** Decidable equality of named types, used to search the rows. *)
Fixpoint rty_eqb (a b : rty) : bool :=
  match a, b with
  | RTy s xs, RTy s' ys =>
      String.eqb s s' &&
      (fix go (l l' : list rty) : bool :=
         match l, l' with
         | [], [] => true
         | x :: m, y :: m' => rty_eqb x y && go m m'
         | _, _ => false
         end) xs ys
  end.

Fixpoint list_eqb {A : Type} (eqb : A -> A -> bool) (l l' : list A) : bool :=
  match l, l' with
  | [], [] => true
  | x :: m, y :: m' => eqb x y && list_eqb eqb m m'
  | _, _ => false
  end.

(** The output recorded for a row, none for an item without signature. *)
Definition row_output (r : row) : option (list rty) :=
  option_map snd (row_signature r).

Definition row_inputs (r : row) : option (list rty) :=
  option_map fst (row_signature r).

(** [returnsb r a]: the recorded output of [r] is exactly the type [a]. *)
Definition returnsb (r : row) (a : rty) : bool :=
  match row_output r with
  | Some out => list_eqb rty_eqb out [a]
  | None => false
  end.

(** [takesb r a]: the type [a] is one of the recorded inputs of [r]. *)
Definition takesb (r : row) (a : rty) : bool :=
  match row_inputs r with
  | Some ins => existsb (rty_eqb a) ins
  | None => false
  end.

Definition has_parent (parent : string) (r : row) : bool :=
  opt_string_eqb (parent_name r) parent.

(** [fails_with e s]: [s] returns a [Result] whose error side is the type
    named [e]. *)
Definition fails_with (e : string) (s : option signature) : bool :=
  match bind s error_component with
  | Some a => rty_eqb a (T e)
  | None => false
  end.

(** [total s]: [s] is a signature with no [Result] error side. *)
Definition total (s : option signature) : bool :=
  match s with
  | Some g => match error_component g with Some _ => false | None => true end
  | None => false
  end.

Definition in_range (m k : nat) : Prop := 1 <= k <= m.

Definition in_rangeb (m k : nat) : bool := Nat.leb 1 k && Nat.leb k m.

(** The positions mentioned by an entry of [f] fall inside [p]. *)
Definition positions_in_table (g : option fnsig) : Prop :=
  match g with
  | Some s => Forall (in_range (length (idx_p hebrides))) (sig_indices s)
  | None => True
  end.

Definition is_array (j : json) : Prop := exists l, j = JArr l.

(** The error sides of every [Result<T, E>] that occurs in a type, at any
    depth. *)
Fixpoint result_errors (a : rty) : list rty :=
  match a with
  | RTy s xs =>
      match xs with
      | [_; e] => if String.eqb s "Result" then [e] else []
      | _ => []
      end ++ flat_map result_errors xs
  end.

Definition sig_errors (s : option signature) : list rty :=
  match s with
  | Some (ins, out) => flat_map result_errors (ins ++ out)
  | None => []
  end.

(** A function signature, written inputs first. *)
Definition fn (ins out : list rty) : option signature := Some (ins, out).

Definition inverse_trig_names : list string :=
  ["arcsin"; "arccos"; "arctan"; "arcsinh"; "arccosh"; "arctanh"].

Definition logarithm_names : list string := ["ln"; "log"; "logf"; "logi"].

(** Row 22 of the index: [Real::arctan]. *)
Definition arctan_row : row :=
  {| row_ty := 11; row_name := "arctan"; row_desc := "Arctangent."; row_parent := 1;
     row_sig := Some {| inputs := [Ty 1 []]; output := [Ty 3 []] |} |}.

(** Row 46 of the index: [Real::cmp]. *)
Definition cmp_row : row :=
  {| row_ty := 11; row_name := "cmp"; row_desc := EmptyString; row_parent := 1;
     row_sig := Some {| inputs := [Ty 1 []; Ty 1 []]; output := [Ty 7 []] |} |}.

(** * The text handed to [JSON.parse] *)

Module Text.

Definition quote : ascii := ascii_of_nat 34.
Definition apostrophe : ascii := ascii_of_nat 39.
Definition backslash : ascii := ascii_of_nat 92.
Definition newline : ascii := ascii_of_nat 10.

(** A backslash followed by a line feed, as at the end of the first two
    lines of the literal. *)
Definition line_continuation : string := String backslash (String newline EmptyString).

(** The characters between the two apostrophes of
    [JSON.parse('...')], in order.  The pieces are written with an
    apostrophe wherever the file has a double quote, and [requote] puts the
    double quotes back; the literal itself contains no apostrophe. *)
Definition source_pieces : list string :=
  [ "{";
    line_continuation;
    "'hebrides':{'doc':'Implementations for real and complex numbers.','t':[3,3,3,3,18,18,";
    "18,3,18,18,11,11,11,11,11,11,11,11,11,11,11,11,11,11,11,11,11,11,11,11,11,11,11,11,11,";
    "11,11,11,11,11,11,11,11,11,11,11,11,11,11,11,11,11,11,11,11,11,11,11,11,11,11,11,11,";
    "11,11,11,11,11,11,11,11,11,11,11,11,11,11,11,11,11,11,11,11,11,11,11,11,11,11,11,11,";
    "11,11,11,11,11,11,11,11,11,11,11,11,11,11,11,11,11,11,11,11,11,11,11,11,11,11,11,11,";
    "11,11,11,11,11,11,11,11,11,11,11,11,11,11,11,11,11,11,11,11,11,11,11,11,11,11,11,11,";
    "11,11,11,11,11],'n':['Angle','Complex','ConversionError','DomainError','I','ONE',";
    "'ONE','Real','ZERO','ZERO','abs','abs','add','add','arccos','arccos','arccosh',";
    "'arccosh','arcsin','arcsin','arcsinh','arcsinh','arctan','arctan','arctanh','arctanh',";
    "'azimuthal','borrow','borrow','borrow','borrow','borrow','borrow_mut','borrow_mut',";
    "'borrow_mut','borrow_mut','borrow_mut','ceil','clone','clone','clone','clone',";
    "'clone_into','clone_into','clone_into','clone_into','cmp','cos','cos','cosh','cosh',";
    "'div','div','eq','eq','exp','exp','floor','fmt','fmt','fmt','fmt','fmt','fmt','fmt',";
    "'fmt','from','from','from','from','from','from','from','from','from','from','from',";
    "'from','from','from','from','from_degrees','from_radians','into','into','into','into',";
    "'into','into_degrees','into_radians','is_imaginary','is_real','ln','ln','log','logf',";
    "'logi','mul','mul','neg','neg','negative','new','new','norm','partial_cmp','positive',";
    "'pow','powf','powi','sin','sin','sinh','sinh','sqrt','sqrt','squared','squared','sub',";
    "'sub','tan','tan','tanh','tanh','to_complex','to_degrees','to_owned','to_owned',";
    "'to_owned','to_owned','to_radians','to_string','to_string','to_string','to_string',";
    "'try_from','try_from','try_from','try_from','try_from','try_from','try_into',";
    "'try_into','try_into','try_into','try_into','type_id','type_id','type_id','type_id',";
    "'type_id','value'],'q':['hebrides','','','','','','','','','','','','','','','','','',";
    "'','','','','','','','','','','','','','','','','','','','','','','','','','','','',";
    "'','','','','','','','','','','','','','','','','','','','','','','','','','','','',";
    "'','','','','','','','','','','','','','','','','','','','','','','','','','','','',";
    "'','','','','','','','','','','','','','','','','','','','','','','','','','','','',";
    "'','','','','','','','','','','','','','','','','','','','','',''],";
    "'d':['Representation of angular values.','Representation of complex numbers',";
    "'Error type for errors involving conversion between values.',";
    "'Error type for errors involving domain restrictions.',";
    "'shortcut for encoding the imaginary unit as …',";
    "'shortcut for describing Real::new(0.0)','shortcut for encoding 1.0 as Complex::new(Re";
    "al::ONE, …','Representation of real numbers.',";
    "'shortcut for describing Real::new(1.0)','shortcut for encoding 0.0 as Complex::new(Re";
    "al::ZERO, …','Absolute value of <code>self</code>.',";
    "'Absolute value (aka. complex norm).','','','Arccosine.','Complex arccos.',";
    "'Hyperbolic arccosine.','Complex inverse hyperbolic cosine.','Arcsine.',";
    "'Complex arcsin.','Hyperbolic arcsine.','Complex inverse hyperbolic sine.',";
    "'Arctangent.','Complex arctan.','Hyperbolic arctangent.',";
    "'Complex inverse hyperbolic tangent.','Azimuthal angle.','','','','','','','','','',";
    "'','Returns the ceiling of <code>self</code>.','','','','','','','','','','Cosine.',";
    "'Complex cosine.','Hyperbolic cosine.','Complex hyperbolic cosine.','','','','',";
    "'e to the power of <code>self</code>.','Complex exponentiation.',";
    "'Returns the floor of <code>self</code>.','','','','','','','','',";
    "'Returns the argument unchanged.','Returns the argument unchanged.',";
    "'Returns the argument unchanged.','','','','','','','','','','',";
    "'Returns the argument unchanged.','Returns the argument unchanged.',";
    "'Constructs an Angle from a given value in degrees',";
    "'Constructs an Angle from a given value in radians',";
    "'Calls <code>U::from(self)</code>.','Calls <code>U::from(self)</code>.',";
    "'Calls <code>U::from(self)</code>.','Calls <code>U::from(self)</code>.',";
    "'Calls <code>U::from(self)</code>.','Converts a <code>value</code> in radians into a v";
    "alue in degrees','Converts a <code>value</code> in degrees into a value in radians',";
    "'Returns whether or not <code>self</code> is imaginary.',";
    "'Returns whether or not <code>self</code> is real.','Natural logarithm.',";
    "'Complex natural logarithm.','Logarithm with base ‘base’.',";
    "'Logarithm with base ‘base’.','Logarithm with base ‘base’.','','','','',";
    "'Whether or not <code>self</code> is negative.','Constructs a Real from an f64.',";
    "'Constructs a Complex from two f64 values','Complex norm.','',";
    "'Whether or not <code>self</code> is positive.',";
    "'<code>self</code> to the power of <code>power</code>.',";
    "'<code>self</code> to the power of <code>power</code>.',";
    "'<code>self</code> to the power of <code>power</code>.','Sine.','Complex sine.',";
    "'Hyperbolic sine.','Complex hyperbolic sine.',";
    "'Returns the square root of <code>self</code>.',";
    "'Returns the square root of <code>self</code>.',";
    "'Returns the square of <code>self</code>.','Returns <code>self</code> squared.','','',";
    "'Tangent.','Complex tangent.','Hyperbolic tangent.','Complex hyperbolic tangent.',";
    "'Constructs a <code>Complex</code> from <code>self</code>.',";
    "'Consumes <code>self</code>, returning a value in degrees.','','','','',";
    "'Consumes <code>self</code>, returning a value in radians.','','','','','','','','',";
    "'','','','','','','','','','','','','Returns a copy of <code>self</code> as an f64.'],";
    "'i':[0,0,0,0,2,1,2,0,1,2,1,2,1,2,1,2,1,2,1,2,1,2,1,2,1,2,2,3,4,6,1,2,3,4,6,1,2,1,4,6,";
    "1,2,4,6,1,2,1,1,2,1,2,1,2,1,2,1,2,1,4,4,6,6,1,1,2,2,3,4,6,1,1,1,1,1,1,1,1,1,1,1,2,3,3,";
    "3,4,6,1,2,3,3,2,2,1,2,1,1,1,1,2,1,2,1,1,2,2,1,1,1,1,1,1,2,1,2,1,2,1,2,1,2,1,2,1,2,1,3,";
    "4,6,1,2,3,4,6,1,2,3,4,6,1,1,2,3,4,6,1,2,3,4,6,1,2,1],'f':[0,0,0,0,0,0,0,0,0,0,[1,1],";
    "[2,2],[[1,1],1],[[2,2],2],[1,[[5,[3,4]]]],[2,2],[1,[[5,[3,4]]]],[2,2],[1,[[5,[3,4]]]],";
    "[2,2],[1,3],[2,2],[1,3],[2,2],[1,[[5,[3,4]]]],[2,2],[2,3],[[]],[[]],[[]],[[]],[[]],";
    "[[]],[[]],[[]],[[]],[[]],[1,1],[4,4],[6,6],[1,1],[2,2],[[]],[[]],[[]],[[]],[[1,1],7],";
    "[1,1],[2,2],[1,1],[2,2],[[1,1],1],[[2,2],2],[[1,1],8],[[2,2],8],[1,1],[2,2],[1,1],[[4,";
    "9],10],[[4,9],10],[[6,9],10],[[6,9],10],[[1,9],10],[[1,9],10],[[2,9],10],[[2,9],10],";
    "[[]],[[]],[[]],[11,1],[12,1],[13,1],[14,1],[15,1],[16,1],[17,1],[18,1],[19,1],[20,1],";
    "[[]],[[]],[18,3],[18,3],[[]],[[]],[[]],[[]],[[]],[18,18],[18,18],[2,8],[2,8],[1,[[5,";
    "[1,4]]]],[2,2],[[1,1],[[5,[1,4]]]],[[1,18],[[5,[1,4]]]],[[1,12],[[5,[1,4]]]],[[1,1],";
    "1],[[2,2],2],[1,1],[2,2],[1,8],[18,1],[[18,18],2],[2,1],[[1,1],[[21,[7]]]],[1,8],[[1,";
    "1],1],[[1,18],[[5,[1,4]]]],[[1,12],1],[1,1],[2,2],[1,1],[2,2],[1,[[5,[1,4]]]],[2,2],";
    "[1,1],[2,2],[[1,1],1],[[2,2],2],[1,1],[2,2],[1,1],[2,2],[1,2],[3,18],[[]],[[]],[[]],";
    "[[]],[3,18],[[],22],[[],22],[[],22],[[],22],[[],5],[[],5],[[],5],[2,[[5,[1,6]]]],[[],";
    "5],[[],5],[[],5],[[],5],[[],5],[[],5],[[],5],[[],23],[[],23],[[],23],[[],23],[[],23],";
    "[1,18]],'p':[[3,'Real'],[3,'Complex'],[3,'Angle'],[3,'DomainError'],[4,'Result'],[3,";
    "'ConversionError'],[4,'Ordering'],[15,'bool'],[3,'Formatter'],[6,'Result'],[15,'i32'],";
    "[15,'i64'],[15,'u16'],[15,'f32'],[15,'u64'],[15,'u8'],[15,'i8'],[15,'f64'],[15,'u32'],";
    "[15,'i16'],[4,'Option'],[3,'String'],[3,'TypeId']]}";
    line_continuation;
    "}" ].

Fixpoint requote (s : string) : string :=
  match s with
  | EmptyString => EmptyString
  | String c rest =>
      String (if Ascii.eqb c apostrophe then quote else c) (requote rest)
  end.

Definition source_literal : string := requote (String.concat EmptyString source_pieces).

Definition prepend (c : ascii) (o : option string) : option string :=
  option_map (String c) o.

(** The string value of a single-quoted JavaScript literal with the given
    source characters.  A backslash before a line feed continues the line
    and contributes nothing; a backslash before a quote, an apostrophe or a
    backslash stands for that character.  The other escape sequences are
    not covered, and a bare line feed or apostrophe cannot occur inside the
    literal: these give [None]. *)
Fixpoint literal_value (s : string) : option string :=
  match s with
  | EmptyString => Some EmptyString
  | String c rest =>
      if Ascii.eqb c backslash then
        match rest with
        | EmptyString => None
        | String e rest' =>
            if Ascii.eqb e newline then literal_value rest'
            else if Ascii.eqb e quote || Ascii.eqb e apostrophe || Ascii.eqb e backslash
                 then prepend e (literal_value rest')
                 else None
        end
      else if Ascii.eqb c newline || Ascii.eqb c apostrophe then None
      else prepend c (literal_value rest)
  end.

(** ** [JSON.parse]

    The grammar of JSON restricted to the values of [json]: objects, arrays,
    strings and non-negative integers, with optional white space between
    tokens.  A text outside this fragment ([true], [false], [null], a sign,
    a fraction, an exponent, a [\u] escape) gives [None] here, as does a
    text that [JSON.parse] rejects. *)

Definition is_ws (c : ascii) : bool :=
  let k := nat_of_ascii c in
  Nat.eqb k 32 || Nat.eqb k 9 || Nat.eqb k 10 || Nat.eqb k 13.

Fixpoint skip_ws (s : string) : string :=
  match s with
  | String c rest => if is_ws c then skip_ws rest else s
  | EmptyString => s
  end.

Definition digit_of (c : ascii) : option nat :=
  let k := nat_of_ascii c in
  if Nat.leb 48 k && Nat.leb k 57 then Some (k - 48) else None.

Fixpoint parse_digits (acc : nat) (s : string) : nat * string :=
  match s with
  | String c rest =>
      match digit_of c with
      | Some v => parse_digits (10 * acc + v) rest
      | None => (acc, s)
      end
  | EmptyString => (acc, s)
  end.

(** What may not follow the integer part: a further digit after a leading
    zero is an error, a fraction or an exponent is outside the fragment. *)
Definition continues_number (s : string) : bool :=
  match s with
  | String c _ =>
      Ascii.eqb c "." || Ascii.eqb c "e" || Ascii.eqb c "E"
  | EmptyString => false
  end.

Definition parse_number (s : string) : option (nat * string) :=
  match s with
  | String c rest =>
      match digit_of c with
      | Some 0 =>
          match rest with
          | String c' _ =>
              match digit_of c' with
              | Some _ => None
              | None => if continues_number rest then None else Some (0, rest)
              end
          | EmptyString => Some (0, rest)
          end
      | Some v =>
          let (k, rest') := parse_digits v rest in
          if continues_number rest' then None else Some (k, rest')
      | None => None
      end
  | EmptyString => None
  end.

(** The character an escape letter stands for inside a JSON string. *)
Definition unescape (e : ascii) : option ascii :=
  if Ascii.eqb e quote then Some quote
  else if Ascii.eqb e backslash then Some backslash
  else if Ascii.eqb e "/" then Some "/"%char
  else if Ascii.eqb e "b" then Some (ascii_of_nat 8)
  else if Ascii.eqb e "f" then Some (ascii_of_nat 12)
  else if Ascii.eqb e "n" then Some (ascii_of_nat 10)
  else if Ascii.eqb e "r" then Some (ascii_of_nat 13)
  else if Ascii.eqb e "t" then Some (ascii_of_nat 9)
  else None.

(** The characters of a string up to its closing quote, and the text after
    it.  Control characters may not stand unescaped in a string. *)
Fixpoint parse_chars (s : string) : option (string * string) :=
  match s with
  | EmptyString => None
  | String c rest =>
      if Ascii.eqb c quote then Some (EmptyString, rest)
      else if Ascii.eqb c backslash then
        match rest with
        | EmptyString => None
        | String e rest' =>
            match unescape e, parse_chars rest' with
            | Some x, Some (body, after) => Some (String x body, after)
            | _, _ => None
            end
        end
      else if Nat.ltb (nat_of_ascii c) 32 then None
      else
        match parse_chars rest with
        | Some (body, after) => Some (String c body, after)
        | None => None
        end
  end.

(** The text after the character [c] when [s] starts with it. *)
Definition after_char (c : ascii) (s : string) : option string :=
  match s with
  | String c' rest => if Ascii.eqb c' c then Some rest else None
  | EmptyString => None
  end.

(** Values, the elements of an array after its opening bracket, and the
    members of an object after its opening brace.  Each call spends one
    unit of [fuel]. *)
Fixpoint parse_value (fuel : nat) (s : string) : option (json * string) :=
  match fuel with
  | 0 => None
  | S fuel' =>
      match skip_ws s with
      | EmptyString => None
      | String c rest =>
          if Ascii.eqb c "[" then
            match after_char "]" (skip_ws rest) with
            | Some after => Some (JArr [], after)
            | None =>
                match parse_elements fuel' rest with
                | Some (l, after) => Some (JArr l, after)
                | None => None
                end
            end
          else if Ascii.eqb c "{" then
            match after_char "}" (skip_ws rest) with
            | Some after => Some (JObj [], after)
            | None =>
                match parse_members fuel' rest with
                | Some (m, after) => Some (JObj m, after)
                | None => None
                end
            end
          else if Ascii.eqb c quote then
            match parse_chars rest with
            | Some (body, after) => Some (JStr body, after)
            | None => None
            end
          else
            match parse_number (String c rest) with
            | Some (k, after) => Some (JNum k, after)
            | None => None
            end
      end
  end

with parse_elements (fuel : nat) (s : string) : option (list json * string) :=
  match fuel with
  | 0 => None
  | S fuel' =>
      match parse_value fuel' s with
      | Some (v, rest) =>
          match skip_ws rest with
          | String c rest' =>
              if Ascii.eqb c "," then
                match parse_elements fuel' rest' with
                | Some (l, after) => Some (v :: l, after)
                | None => None
                end
              else if Ascii.eqb c "]" then Some ([v], rest')
              else None
          | EmptyString => None
          end
      | None => None
      end
  end

with parse_members (fuel : nat) (s : string) : option (list (string * json) * string) :=
  match fuel with
  | 0 => None
  | S fuel' =>
      match after_char quote (skip_ws s) with
      | Some rest =>
          match parse_chars rest with
          | Some (key, rest1) =>
              match after_char ":" (skip_ws rest1) with
              | Some rest2 =>
                  match parse_value fuel' rest2 with
                  | Some (v, rest3) =>
                      match skip_ws rest3 with
                      | String c rest4 =>
                          if Ascii.eqb c "," then
                            match parse_members fuel' rest4 with
                            | Some (m, after) => Some ((key, v) :: m, after)
                            | None => None
                            end
                          else if Ascii.eqb c "}" then Some ([(key, v)], rest4)
                          else None
                      | EmptyString => None
                      end
                  | None => None
                  end
              | None => None
              end
          | None => None
          end
      | None => None
      end
  end.

(** A whole text is one value, with nothing but white space after it.  No
    call chain is longer than the text, so its length is fuel enough. *)
Definition JSON_parse (s : string) : option json :=
  match parse_value (S (String.length s)) s with
  | Some (v, rest) =>
      match skip_ws rest with
      | EmptyString => Some v
      | String _ _ => None
      end
  | None => None
  end.

(** The first statement of the script: the value bound to [searchIndex]. *)
Definition parsed_literal : option json := bind (literal_value source_literal) JSON_parse.

End Text.
Export Text.

(** * The two statements after the parse

    [if (typeof window !== 'undefined' && window.initSearch)
       {window.initSearch(searchIndex)};]
    [if (typeof exports !== 'undefined') {exports.searchIndex = searchIndex};]

    The script carries no strictness directive, so an assignment to a
    property of a primitive is dropped without error.  Properties are plain
    data properties, read without side effect. *)

Module Host.

(** What an identifier of the global scope is bound to. *)
Inductive binding (A : Type) : Type :=
| Undeclared
| Undefined
| Null
| Primitive (truthy : bool)
| Object (o : A).
Arguments Undeclared {A}.
Arguments Undefined {A}.
Arguments Null {A}.
Arguments Primitive {A} truthy.
Arguments Object {A} o.

(** The value of the property [initSearch] of the object [window]:
    missing or undefined, null, a primitive, a function (whose call
    returns or throws), or an object that cannot be called. *)
Inductive member : Type :=
| MUndefined
| MNull
| MPrimitive (truthy : bool)
| MFunction (returns : bool)
| MObject.

(** The values held by the properties of the object [exports]: the parsed
    index, or anything else, kept opaque. *)
Inductive held : Type :=
| Other (tag : nat)
| Index (idx : json).

Definition properties : Type := list (string * held).

Record env : Type := {
  env_window : binding member;
  env_exports : binding properties
}.

Inductive exn : Type :=
| SyntaxError
| ReferenceError
| TypeError
| Thrown.

(** What a run of the script leaves behind: the calls of
    [window.initSearch] and the assignments to [exports.searchIndex] in the
    order they happened, the binding of [exports], and the exception that
    ended the run, if any. *)
Record outcome : Type := {
  trace : list effect;
  exports_after : binding properties;
  raised : option exn
}.

(** [typeof x !== 'undefined']; [typeof] accepts an undeclared identifier. *)
Definition typeof_defined {A : Type} (b : binding A) : bool :=
  match b with
  | Undeclared | Undefined => false
  | Null | Primitive _ | Object _ => true
  end.

(** [window.initSearch]. *)
Definition get_initSearch (w : binding member) : exn + member :=
  match w with
  | Undeclared => inl ReferenceError
  | Undefined | Null => inl TypeError
  | Primitive _ => inr MUndefined
  | Object m => inr m
  end.

Definition truthy (m : member) : bool :=
  match m with
  | MUndefined | MNull => false
  | MPrimitive b => b
  | MFunction _ | MObject => true
  end.

(** Properties of an object: the first binding of a key counts, and an
    assignment replaces it in place or adds the key at the end. *)
Fixpoint get_property (k : string) (ps : properties) : option held :=
  match ps with
  | [] => None
  | (k', v) :: ps' => if String.eqb k k' then Some v else get_property k ps'
  end.

Fixpoint set_property (k : string) (v : held) (ps : properties) : properties :=
  match ps with
  | [] => [(k, v)]
  | (k', v') :: ps' =>
      if String.eqb k k' then (k', v) :: ps' else (k', v') :: set_property k v ps'
  end.

(** [typeof window !== 'undefined' && window.initSearch], as a condition:
    the right operand is evaluated only when the left one holds. *)
Definition init_condition (w : binding member) : exn + bool :=
  if typeof_defined w then
    match get_initSearch w with
    | inl x => inl x
    | inr m => inr (truthy m)
    end
  else inr false.

(** [window.initSearch(searchIndex)]. *)
Definition call_initSearch (idx : json) (w : binding member) : list effect * option exn :=
  match get_initSearch w with
  | inl x => ([], Some x)
  | inr (MFunction r) => ([InitSearch idx], if r then None else Some Thrown)
  | inr _ => ([], Some TypeError)
  end.

Definition init_statement (idx : json) (w : binding member) : list effect * option exn :=
  match init_condition w with
  | inl x => ([], Some x)
  | inr true => call_initSearch idx w
  | inr false => ([], None)
  end.

(** [exports.searchIndex = searchIndex]. *)
Definition assign_searchIndex (idx : json) (x : binding properties)
  : binding properties * list effect * option exn :=
  match x with
  | Undeclared => (x, [], Some ReferenceError)
  | Undefined | Null => (x, [], Some TypeError)
  | Primitive _ => (x, [], None)
  | Object ps =>
      (Object (set_property "searchIndex" (Index idx) ps),
       [SetExport "searchIndex" idx], None)
  end.

Definition export_statement (idx : json) (x : binding properties)
  : binding properties * list effect * option exn :=
  if typeof_defined x then assign_searchIndex idx x else (x, [], None).

(** The second statement runs only when the first ended normally. *)
Definition handoff (idx : json) (e : env) : outcome :=
  match init_statement idx (env_window e) with
  | (t, Some x) => {| trace := t; exports_after := env_exports e; raised := Some x |}
  | (t, None) =>
      match export_statement idx (env_exports e) with
      | (x', t', r) => {| trace := t ++ t'; exports_after := x'; raised := r |}
      end
  end.

(** The whole script: parse, then hand over. *)
Definition script (e : env) : outcome :=
  match parsed_literal with
  | None => {| trace := []; exports_after := env_exports e; raised := Some SyntaxError |}
  | Some idx => handoff idx e
  end.

(** What the three flags of [host] say about an environment. *)
Definition host_of (e : env) : host :=
  {| has_window := typeof_defined (env_window e);
     has_initSearch :=
       match get_initSearch (env_window e) with
       | inr m => truthy m
       | inl _ => false
       end;
     has_exports := typeof_defined (env_exports e) |}.

Definition is_primitive {A : Type} (b : binding A) : bool :=
  match b with Primitive _ => true | _ => false end.

Definition is_init (x : effect) : bool :=
  match x with InitSearch _ => true | SetExport _ _ => false end.

End Host.
Export Host.

(** * Further readings of the rows *)

(** Every entry is at most every later one, in byte order. *)
Fixpoint ordered (l : list string) : bool :=
  match l with
  | [] => true
  | a :: t => forallb (String.leb a) t && ordered t
  end.

(** The module path of each item: an empty entry of [q] repeats the path
    of the item before it. *)
Fixpoint item_paths (last : string) (qs : list string) : list string :=
  match qs with
  | [] => []
  | s :: qs' =>
      let here := match s with EmptyString => last | String _ _ => s end in
      here :: item_paths here qs'
  end.

(** The descriptions recorded for [parent::name], in index order. *)
Definition descriptions_of (parent name : string) : list string :=
  map row_desc (filter (is_member parent name) rows).

(** Row [r] mentions position [k] of the type table, as its parent or in
    its signature. *)
Definition mentions (k : nat) (r : row) : bool :=
  Nat.eqb (row_parent r) k
  || match row_sig r with
     | Some g => existsb (Nat.eqb k) (sig_indices g)
     | None => false
     end.

Definition has_signature (r : row) : bool :=
  match row_sig r with Some _ => true | None => false end.

(** The entry of the type table a row's parent position points to. *)
Definition parent_entry (r : row) : option path :=
  match row_parent r with
  | 0 => None
  | S k => nth_error (idx_p hebrides) k
  end.

(** The row documents the type named [s] itself: kind 3, no parent. *)
Definition documents_type (s : string) (r : row) : bool :=
  String.eqb (row_name r) s && Nat.eqb (row_ty r) 3 && Nat.eqb (row_parent r) 0.

(** The text [JSON.parse] receives: the value of the literal. *)
Definition json_text : string :=
  match literal_value source_literal with
  | Some txt => txt
  | None => EmptyString
  end.

(** * Proof steps *)

(** Case analysis along a parse, one unit of fuel apart. *)
Ltac fuel_cases H IHv IHe IHm :=
  repeat
    match type of H with
    | context [parse_value ?n ?s] =>
        let E := fresh "E" in
        destruct (parse_value n s) as [[? ?] |] eqn:E;
        [apply IHv in E; rewrite E | discriminate H]
    | context [parse_elements ?n ?s] =>
        let E := fresh "E" in
        destruct (parse_elements n s) as [[? ?] |] eqn:E;
        [apply IHe in E; rewrite E | discriminate H]
    | context [parse_members ?n ?s] =>
        let E := fresh "E" in
        destruct (parse_members n s) as [[? ?] |] eqn:E;
        [apply IHm in E; rewrite E | discriminate H]
    | match ?x with _ => _ end = _ => destruct x; try discriminate H
    end.

(** Case analysis over the bindings of [window] and [exports]. *)
Ltac env_cases e :=
  let w := fresh "w" in
  let x := fresh "x" in
  destruct e as [w x];
  destruct w as [| | | ? | [| | [|] | [|] |]];
  destruct x as [| | | ? | ?].

(** Evaluation of the two statements, leaving the parsed value folded. *)
Ltac run_handoff :=
  cbv beta iota zeta
      delta [handoff init_statement init_condition call_initSearch get_initSearch
             typeof_defined truthy export_statement assign_searchIndex
             env_window env_exports exports_after trace raised
             host_of run has_window has_initSearch has_exports is_primitive
             is_init andb app].

(** Induction over types whose generics are lists of types. *)
Section TyInduction.
Variable P : ty -> Prop.
Hypothesis step : forall k gs, Forall P gs -> P (Ty k gs).

Fixpoint ty_nested_ind (a : ty) : P a :=
  match a with
  | Ty k gs =>
      step k gs
        ((fix all (l : list ty) : Forall P l :=
            match l with
            | [] => Forall_nil P
            | x :: l' => Forall_cons x (ty_nested_ind x) (all l')
            end) gs)
  end.
End TyInduction.

Section RtyInduction.
Variable P : rty -> Prop.
Hypothesis step : forall s xs, Forall P xs -> P (RTy s xs).

Fixpoint rty_nested_ind (a : rty) : P a :=
  match a with
  | RTy s xs =>
      step s xs
        ((fix all (l : list rty) : Forall P l :=
            match l with
            | [] => Forall_nil P
            | x :: l' => Forall_cons x (rty_nested_ind x) (all l')
            end) xs)
  end.
End RtyInduction.

(** * Properties of the reader *)

Section MapM.
Context {A B : Type} (g : A -> option B).

Lemma mapM_cons_Some x l y ys :
  g x = Some y -> mapM g l = Some ys -> mapM g (x :: l) = Some (y :: ys).
Proof. intros Hx Hl. simpl. rewrite Hx, Hl. reflexivity. Qed.

Lemma mapM_defined l :
  Forall (fun x => exists y, g x = Some y) l -> exists ys, mapM g l = Some ys.
Proof.
  induction 1 as [| x l [y Hy] _ [ys Hys]].
  - exists []. reflexivity.
  - exists (y :: ys). now apply mapM_cons_Some.
Qed.

Lemma mapM_length l : forall ys, mapM g l = Some ys -> length ys = length l.
Proof.
  induction l as [| x l IH]; simpl; intros ys H.
  - injection H as <-. reflexivity.
  - destruct (g x) as [y|]; [| discriminate].
    destruct (mapM g l) as [zs|]; [| discriminate].
    injection H as <-. simpl. f_equal. now apply IH.
Qed.
End MapM.

Lemma in_rangeb_spec m k : in_rangeb m k = true <-> in_range m k.
Proof.
  unfold in_rangeb, in_range.
  rewrite andb_true_iff, Nat.leb_le, Nat.leb_le. tauto.
Qed.

Lemma type_name_defined p k :
  in_range (length p) k -> exists s, type_name p k = Some s.
Proof.
  unfold in_range. destruct k as [| k']; simpl; intros [H1 H2]; [lia |].
  destruct (nth_error p k') as [e |] eqn:E.
  - exists (path_name e). reflexivity.
  - apply nth_error_None in E. lia.
Qed.

Lemma type_name_in_range p k s : type_name p k = Some s -> in_range (length p) k.
Proof.
  unfold in_range. destruct k as [| k']; simpl; [discriminate |].
  destruct (nth_error p k') as [e |] eqn:E; [| discriminate].
  intros _. assert (k' < length p) by (apply nth_error_Some; congruence). lia.
Qed.

(** A type whose positions all fall inside the table resolves to names. *)
Lemma resolve_defined p a :
  Forall (in_range (length p)) (ty_indices a) -> exists r, resolve p a = Some r.
Proof.
  induction a as [k gs IH] using ty_nested_ind. simpl.
  intros H. apply Forall_cons_iff in H as [Hk Hgs].
  destruct (type_name_defined p k Hk) as [s Hs].
  assert (Hall : Forall (fun x => exists y, resolve p x = Some y) gs).
  { rewrite Forall_forall in IH |- *. intros x Hx. apply IH; [exact Hx |].
    rewrite Forall_forall in Hgs |- *. intros j Hj. apply Hgs.
    apply in_flat_map. exists x. split; assumption. }
  destruct (mapM_defined _ _ Hall) as [rs Hrs].
  exists (RTy s rs). rewrite Hs, Hrs. reflexivity.
Qed.

Lemma resolve_list_defined p l :
  Forall (in_range (length p)) (flat_map ty_indices l) ->
  exists rs, mapM (resolve p) l = Some rs.
Proof.
  intros H. apply mapM_defined. rewrite Forall_forall in H |- *.
  intros x Hx. apply resolve_defined. rewrite Forall_forall. intros j Hj.
  apply H, in_flat_map. exists x. split; assumption.
Qed.

(** A signature whose positions all fall inside the table resolves. *)
Lemma resolve_sig_defined p g :
  Forall (in_range (length p)) (sig_indices g) -> exists s, resolve_sig p g = Some s.
Proof.
  unfold sig_indices, resolve_sig. intros H. apply Forall_app in H as [Hi Ho].
  destruct (resolve_list_defined p _ Hi) as [ins ->].
  destruct (resolve_list_defined p _ Ho) as [out ->].
  exists (ins, out). reflexivity.
Qed.

Lemma zip_rows_length m ts : forall ns ds ps fs,
  length ts = m -> length ns = m -> length ds = m -> length ps = m -> length fs = m ->
  length (zip_rows ts ns ds ps fs) = m.
Proof.
  revert m. induction ts as [| k ts IH]; intros m ns ds ps fs Ht Hn Hd Hp Hf.
  - simpl in *. congruence.
  - destruct m as [| m']; [discriminate |].
    destruct ns, ds, ps, fs; try discriminate. simpl in *.
    f_equal. apply IH; congruence.
Qed.

Lemma list_eqb_eq {A : Type} (eqb : A -> A -> bool) (l : list A) :
  Forall (fun x => forall y, eqb x y = true <-> x = y) l ->
  forall l', list_eqb eqb l l' = true <-> l = l'.
Proof.
  induction 1 as [| x l Hx _ IH]; intros [| y l']; simpl; split;
    try discriminate; try reflexivity.
  - rewrite andb_true_iff, Hx, IH. intros [-> ->]. reflexivity.
  - intros [= -> ->]. rewrite andb_true_iff, Hx, IH. split; reflexivity.
Qed.

Lemma rty_eqb_unfold s xs s' ys :
  rty_eqb (RTy s xs) (RTy s' ys) = String.eqb s s' && list_eqb rty_eqb xs ys.
Proof.
  simpl. f_equal. revert ys.
  induction xs as [| x xs IH]; intros [| y ys]; try reflexivity.
  simpl. f_equal. apply IH.
Qed.

Lemma rty_eqb_eq a : forall b, rty_eqb a b = true <-> a = b.
Proof.
  induction a as [s xs IH] using rty_nested_ind. intros [s' ys].
  rewrite rty_eqb_unfold, andb_true_iff, String.eqb_eq, (list_eqb_eq rty_eqb xs IH).
  split.
  - intros [-> ->]. reflexivity.
  - intros [= -> ->]. split; reflexivity.
Qed.

Lemma returnsb_spec r a : returnsb r a = true <-> row_output r = Some [a].
Proof.
  unfold returnsb. destruct (row_output r) as [out |]; [| split; discriminate].
  rewrite (list_eqb_eq rty_eqb out).
  - split; [intros -> | intros [= ->]]; reflexivity.
  - apply Forall_forall. intros x _. apply rty_eqb_eq.
Qed.

Lemma takesb_spec r a :
  takesb r a = true <-> exists ins, row_inputs r = Some ins /\ In a ins.
Proof.
  unfold takesb. destruct (row_inputs r) as [ins |].
  - rewrite existsb_exists. split.
    + intros [x [Hx E]]. apply rty_eqb_eq in E. subst x. exists ins. auto.
    + intros [ins' [[= <-] Hin]]. exists a. split; [exact Hin | now apply rty_eqb_eq].
  - split; [discriminate | intros [ins [E _]]; discriminate].
Qed.

Lemma opt_string_eqb_spec o s : opt_string_eqb o s = true <-> o = Some s.
Proof.
  destruct o as [s' |]; simpl.
  - rewrite String.eqb_eq. split; [intros -> | intros [= ->]]; reflexivity.
  - split; discriminate.
Qed.

Lemma is_member_spec parent name r :
  is_member parent name r = true <-> parent_name r = Some parent /\ row_name r = name.
Proof.
  unfold is_member. now rewrite andb_true_iff, opt_string_eqb_spec, String.eqb_eq.
Qed.

(** [signatures_of] lists exactly the signatures of the rows of that parent
    and name. *)
Lemma signatures_of_spec parent name s :
  In s (signatures_of parent name) <->
  exists r, In r rows /\ parent_name r = Some parent /\ row_name r = name
            /\ row_signature r = s.
Proof.
  unfold signatures_of. rewrite in_map_iff. split.
  - intros [r [E H]]. apply filter_In in H as [Hr Hm].
    apply is_member_spec in Hm as [Hp Hn]. exists r. auto.
  - intros [r (Hr & Hp & Hn & E)]. exists r. split; [exact E |].
    apply filter_In. split; [exact Hr |]. apply is_member_spec. auto.
Qed.

(** A check run over all rows transfers to each of them. *)
Lemma rows_all (check : row -> bool) :
  forallb check rows = true -> forall r, In r rows -> check r = true.
Proof. intros H. now apply forallb_forall. Qed.

Lemma Forall_of_check {A : Type} (check : A -> bool) (P : A -> Prop) (l : list A) :
  (forall x, check x = true -> P x) -> forallb check l = true -> Forall P l.
Proof.
  intros Hc H. apply Forall_forall. intros x Hx. apply Hc.
  revert x Hx. now apply forallb_forall.
Qed.

(** * The index of the crate *)

(** Whatever the host, the script hands over the parsed value and nothing
    else. *)
Lemma run_hands_over_searchIndex h e :
  In e (run h) -> e = InitSearch searchIndex \/ e = SetExport "searchIndex" searchIndex.
Proof.
  unfold run. intros H. apply in_app_or in H as [H | H].
  - destruct (has_window h && has_initSearch h); [| destruct H].
    destruct H as [<- | []]. left. reflexivity.
  - destruct (has_exports h); [| destruct H].
    destruct H as [<- | []]. right. reflexivity.
Qed.

(** The value under the crate key reads back without failure. *)
Lemma read_hebrides : bind (get "hebrides" searchIndex) read_crate = Some hebrides.
Proof. vm_compute. reflexivity. Qed.

Lemma parents_in_table :
  Forall (fun k => k = 0 \/ in_range (length (idx_p hebrides)) k) (idx_i hebrides).
Proof.
  apply Forall_of_check
    with (check := fun k => Nat.eqb k 0 || in_rangeb (length (idx_p hebrides)) k).
  - intros k H. apply orb_true_iff in H as [H | H].
    + left. now apply Nat.eqb_eq.
    + right. now apply in_rangeb_spec.
  - vm_compute. reflexivity.
Qed.

Lemma signatures_in_table : Forall positions_in_table (idx_f hebrides).
Proof.
  apply Forall_of_check
    with (check := fun g => match g with
                            | Some s => forallb (in_rangeb (length (idx_p hebrides)))
                                          (sig_indices s)
                            | None => true
                            end).
  - intros [s |] H; simpl; [| exact I].
    revert H. apply Forall_of_check. intros k. apply in_rangeb_spec.
  - vm_compute. reflexivity.
Qed.

Lemma rows_length : length rows = 152.
Proof. apply zip_rows_length; vm_compute; reflexivity. Qed.

Lemma row_sig_in_f r : In r rows -> In (row_sig r) (idx_f hebrides).
Proof.
  unfold rows, rows_of.
  generalize (idx_t hebrides) (idx_n hebrides) (idx_d hebrides) (idx_i hebrides)
             (idx_f hebrides).
  intros ts. induction ts as [| k ts IH]; intros ns ds ps fs; [intros [] |].
  destruct ns, ds, ps, fs; simpl; try contradiction.
  intros [<- | Hin]; [left; reflexivity | right; eapply IH; exact Hin].
Qed.

(** Every function row of the index has a signature that resolves to
    names of the type table. *)
Lemma rows_resolve r g :
  In r rows -> row_sig r = Some g -> exists s, row_signature r = Some s.
Proof.
  intros Hr Hg. unfold row_signature. rewrite Hg. simpl.
  apply resolve_sig_defined.
  pose proof signatures_in_table as H. rewrite Forall_forall in H.
  specialize (H _ (row_sig_in_f r Hr)). rewrite Hg in H. exact H.
Qed.

Lemma arctan_row_recorded : nth_error rows 22 = Some arctan_row.
Proof. vm_compute. reflexivity. Qed.

Lemma cmp_row_recorded : nth_error rows 46 = Some cmp_row.
Proof. vm_compute. reflexivity. Qed.

(** ** Inverse trigonometric operations of [Real] *)

(** C1, as stated, fails: [Real::arctan] (row 22) is recorded with
    signature [Real -> Angle], which has no [Result] and no error side. *)
Lemma inverse_trig_not_all_fallible :
  ~ (forall r, In r rows -> parent_name r = Some "Real" ->
       In (row_name r) inverse_trig_names ->
       fails_with "DomainError" (row_signature r) = true).
Proof.
  intros H.
  assert (Hin : In arctan_row rows) by (eapply nth_error_In; exact arctan_row_recorded).
  specialize (H arctan_row Hin eq_refl).
  assert (Hn : In (row_name arctan_row) inverse_trig_names) by (simpl; tauto).
  specialize (H Hn). vm_compute in H. discriminate H.
Qed.

(** C1, amended: of the inverse trigonometric operations recorded for
    [Real], [arcsin], [arccos], [arccosh] and [arctanh] have signature
    [Real -> Result<Angle, DomainError>], while [arctan] and [arcsinh] are
    recorded as total, with signature [Real -> Angle]. *)
Theorem inverse_trig_signatures :
  Forall (fun name =>
            signatures_of "Real" name
            = [fn [T "Real"] [Result_ (T "Angle") (T "DomainError")]])
         ["arcsin"; "arccos"; "arccosh"; "arctanh"]
  /\ Forall (fun name => signatures_of "Real" name = [fn [T "Real"] [T "Angle"]])
            ["arctan"; "arcsinh"]
  /\ Forall (fun name =>
               Forall (fun s => fails_with "DomainError" s = true)
                      (signatures_of "Real" name))
            ["arcsin"; "arccos"; "arccosh"; "arctanh"]
  /\ Forall (fun name => Forall (fun s => total s = true) (signatures_of "Real" name))
            ["arctan"; "arcsinh"].
Proof.
  repeat split; repeat (constructor; [vm_compute; try reflexivity |]);
    repeat constructor.
Qed.

(** ** Logarithms of [Real] *)

(** C2: each of [ln], [log], [logf] and [logi] is recorded once for [Real],
    with a signature returning [Result<Real, DomainError>]; hence every row
    of [Real] with one of these names has [DomainError] as error side. *)
Theorem logarithms_fail_with_DomainError name :
  In name logarithm_names ->
  (exists ins,
      signatures_of "Real" name = [fn ins [Result_ (T "Real") (T "DomainError")]])
  /\ (forall r, In r rows -> parent_name r = Some "Real" -> row_name r = name ->
        fails_with "DomainError" (row_signature r) = true).
Proof.
  intros Hname.
  assert (Hsig : exists ins,
             signatures_of "Real" name
             = [fn ins [Result_ (T "Real") (T "DomainError")]]).
  { unfold logarithm_names in Hname. simpl in Hname.
    destruct Hname as [<- | [<- | [<- | [<- | []]]]].
    - exists [T "Real"]. vm_compute. reflexivity.
    - exists [T "Real"; T "Real"]. vm_compute. reflexivity.
    - exists [T "Real"; T "f64"]. vm_compute. reflexivity.
    - exists [T "Real"; T "i64"]. vm_compute. reflexivity. }
  split; [exact Hsig |].
  destruct Hsig as [ins Hsig]. intros r Hr Hp Hn.
  assert (Hs : In (row_signature r) (signatures_of "Real" name)).
  { apply signatures_of_spec. exists r. auto. }
  rewrite Hsig in Hs. destruct Hs as [<- | []]. reflexivity.
Qed.

(** The statement above at [logf], row 95 of the index. *)
Lemma logarithms_fail_with_DomainError_logf :
  (exists ins,
      signatures_of "Real" "logf" = [fn ins [Result_ (T "Real") (T "DomainError")]])
  /\ (forall r, In r rows -> parent_name r = Some "Real" -> row_name r = "logf" ->
        fails_with "DomainError" (row_signature r) = true).
Proof.
  apply (logarithms_fail_with_DomainError "logf").
  unfold logarithm_names. simpl. tauto.
Defined.

(** ** Ordering of [Real] *)

(** C3, as stated, fails: [Real::cmp] (row 46) is recorded with signature
    [(Real, Real) -> Ordering], a comparison returning [Ordering]
    directly. *)
Lemma total_comparison_recorded :
  ~ (forall r, In r rows -> parent_name r = Some "Real" ->
       row_output r <> Some [T "Ordering"]).
Proof.
  intros H.
  apply (H cmp_row).
  - eapply nth_error_In. exact cmp_row_recorded.
  - reflexivity.
  - reflexivity.
Qed.

(** C3, amended: [Real] records both comparisons, [partial_cmp] with
    signature [(Real, Real) -> Option<Ordering>] and [cmp] with signature
    [(Real, Real) -> Ordering], and no other row of [Real] returns
    [Ordering] or [Option<Ordering>]. *)
Theorem real_comparisons :
  signatures_of "Real" "partial_cmp"
  = [fn [T "Real"; T "Real"] [Option_ (T "Ordering")]]
  /\ signatures_of "Real" "cmp" = [fn [T "Real"; T "Real"] [T "Ordering"]]
  /\ map row_name
       (filter (fun r => has_parent "Real" r
                         && (returnsb r (T "Ordering")
                             || returnsb r (Option_ (T "Ordering"))))
               rows)
     = ["cmp"; "partial_cmp"].
Proof. repeat split; vm_compute; reflexivity. Qed.

(** ** Conversions between [Angle] and [Complex] *)

(** C4, as stated, fails: no row whose parent is [Angle] returns a
    [Complex]; [to_complex] is recorded for [Real]. *)
Lemma no_angle_operation_returns_complex :
  ~ ((exists r, In r rows /\ parent_name r = Some "Complex"
                /\ row_output r = Some [T "Angle"])
     /\ (exists r, In r rows /\ parent_name r = Some "Angle"
                   /\ row_output r = Some [T "Complex"])).
Proof.
  intros [_ [r (Hr & Hp & Ho)]].
  assert (Hall : forallb (fun r => negb (has_parent "Angle" r
                                         && returnsb r (T "Complex"))) rows = true)
    by (vm_compute; reflexivity).
  pose proof (rows_all _ Hall r Hr) as Hneg. simpl in Hneg.
  apply negb_true_iff, andb_false_iff in Hneg.
  destruct Hneg as [Hneg | Hneg].
  - apply opt_string_eqb_spec in Hp. unfold has_parent in Hneg. congruence.
  - apply returnsb_spec in Ho. congruence.
Qed.

(** C4, amended: the index records [azimuthal] on [Complex] with signature
    [Complex -> Angle] and [to_complex] on [Real] with signature
    [Real -> Complex]; nothing named [to_complex] is recorded for [Angle],
    and no row that has [Angle] as parent or takes an [Angle] returns a
    [Complex]. *)
Theorem angle_complex_conversions :
  signatures_of "Complex" "azimuthal" = [fn [T "Complex"] [T "Angle"]]
  /\ signatures_of "Real" "to_complex" = [fn [T "Real"] [T "Complex"]]
  /\ signatures_of "Angle" "to_complex" = []
  /\ filter (fun r => (has_parent "Angle" r || takesb r (T "Angle"))
                      && returnsb r (T "Complex")) rows = [].
Proof. repeat split; vm_compute; reflexivity. Qed.

(** ** [Complex] *)

(** C5: [Complex::new] is recorded with signature [(f64, f64) -> Complex]
    and [Complex::eq] with signature [(Complex, Complex) -> bool]. *)
Theorem complex_new_and_eq :
  signatures_of "Complex" "new" = [fn [T "f64"; T "f64"] [T "Complex"]]
  /\ signatures_of "Complex" "eq" = [fn [T "Complex"; T "Complex"] [T "bool"]].
Proof. split; vm_compute; reflexivity. Qed.

(** ** [Angle] *)

(** C6: [from_degrees] and [from_radians] are recorded for [Angle] with
    signature [f64 -> Angle], [to_degrees] and [to_radians] with signature
    [Angle -> f64]. *)
Theorem angle_constructors_and_extractors :
  Forall (fun name => signatures_of "Angle" name = [fn [T "f64"] [T "Angle"]])
         ["from_degrees"; "from_radians"]
  /\ Forall (fun name => signatures_of "Angle" name = [fn [T "Angle"] [T "f64"]])
            ["to_degrees"; "to_radians"].
Proof.
  split; repeat (apply Forall_cons; [vm_compute; reflexivity |]); apply Forall_nil.
Qed.

(** ** [Real] *)

(** C7: with [Real] as parent the index records [add], [sub], [mul] and
    [div] with signature [(Real, Real) -> Real], [positive] and [negative]
    with [Real -> bool], [floor], [ceil], [sin], [cos], [tan], [sinh],
    [cosh], [tanh] and [exp] with [Real -> Real], and [value] with
    [Real -> f64]. *)
Theorem real_operations :
  Forall (fun name =>
            signatures_of "Real" name = [fn [T "Real"; T "Real"] [T "Real"]])
         ["add"; "sub"; "mul"; "div"]
  /\ Forall (fun name => signatures_of "Real" name = [fn [T "Real"] [T "bool"]])
            ["positive"; "negative"]
  /\ Forall (fun name => signatures_of "Real" name = [fn [T "Real"] [T "Real"]])
            ["floor"; "ceil"; "sin"; "cos"; "tan"; "sinh"; "cosh"; "tanh"; "exp"]
  /\ signatures_of "Real" "value" = [fn [T "Real"] [T "f64"]].
Proof.
  repeat apply conj;
    repeat (apply Forall_cons; [vm_compute; reflexivity |]);
    try apply Forall_nil.
  vm_compute. reflexivity.
Qed.

(** ** Shape of the index *)

(** C8: the parsed value is an object with the single key [hebrides];
    the value under it holds arrays under [t], [n], [d], [i], [f] and [p],
    and these read back as the item kinds, names, descriptions, parent
    positions, signatures and type table of the crate. *)
Theorem searchIndex_shape :
  keys searchIndex = ["hebrides"]
  /\ (exists c, searchIndex = JObj [("hebrides", c)]
        /\ Forall (fun k => exists v, get k c = Some v /\ is_array v)
                  ["t"; "n"; "d"; "i"; "f"; "p"]
        /\ read_crate c = Some hebrides).
Proof.
  split; [reflexivity |].
  exists hebrides_crate. split; [reflexivity |]. split.
  - repeat (apply Forall_cons;
            [eexists; split; [vm_compute; reflexivity | eexists; reflexivity] |]).
    apply Forall_nil.
  - exact read_hebrides.
Qed.

(** C9: the lists [t], [n], [d], [i] and [f] of the crate have length 152
    and [p] has length 23; every entry of [i] is 0 or a position of [p],
    and every position mentioned by a signature of [f] is a position of
    [p]. *)
Theorem index_well_formed :
  bind (get "hebrides" searchIndex) read_crate = Some hebrides
  /\ length (idx_t hebrides) = 152
  /\ length (idx_n hebrides) = 152
  /\ length (idx_d hebrides) = 152
  /\ length (idx_i hebrides) = 152
  /\ length (idx_f hebrides) = 152
  /\ length (idx_p hebrides) = 23
  /\ Forall (fun k => k = 0 \/ 1 <= k <= 23) (idx_i hebrides)
  /\ Forall (fun g => match g with
                      | Some s => Forall (fun k => 1 <= k <= 23) (sig_indices s)
                      | None => True
                      end) (idx_f hebrides).
Proof.
  split; [exact read_hebrides |].
  do 6 (split; [vm_compute; reflexivity |]).
  split; [exact parents_in_table | exact signatures_in_table].
Qed.

(** ** [ConversionError] *)

(** C10: exactly one row has [ConversionError] as the error side of its
    signature, [try_from] of [Real] with signature
    [Complex -> Result<Real, ConversionError>], and it is also the only row
    in which a [Result<_, ConversionError>] occurs at any depth; [div],
    [pow] and [powi] of [Real] are recorded with signatures returning
    [Real], without a [Result]. *)
Theorem conversion_error_once :
  map (fun r => (parent_name r, row_name r, row_signature r))
      (filter (fun r => fails_with "ConversionError" (row_signature r)) rows)
  = [(Some "Real", "try_from",
      fn [T "Complex"] [Result_ (T "Real") (T "ConversionError")])]
  /\ map (fun r => (parent_name r, row_name r))
         (filter (fun r => existsb (rty_eqb (T "ConversionError"))
                                   (sig_errors (row_signature r))) rows)
     = [(Some "Real", "try_from")]
  /\ signatures_of "Real" "div" = [fn [T "Real"; T "Real"] [T "Real"]]
  /\ signatures_of "Real" "pow" = [fn [T "Real"; T "Real"] [T "Real"]]
  /\ signatures_of "Real" "powi" = [fn [T "Real"; T "i64"] [T "Real"]]
  /\ Forall (fun name => Forall (fun s => total s = true) (signatures_of "Real" name))
            ["div"; "pow"; "powi"].
Proof.
  do 5 (split; [vm_compute; reflexivity |]).
  repeat (apply Forall_cons; [vm_compute; repeat constructor |]).
  apply Forall_nil.
Qed.

(** * The parse of the literal *)

(** One more unit of fuel never changes a result. *)
Lemma parse_fuel_step n :
  (forall s r, parse_value n s = Some r -> parse_value (S n) s = Some r)
  /\ (forall s r, parse_elements n s = Some r -> parse_elements (S n) s = Some r)
  /\ (forall s r, parse_members n s = Some r -> parse_members (S n) s = Some r).
Proof.
  induction n as [| n (IHv & IHe & IHm)].
  - repeat split; intros s r H; discriminate H.
  - remember (S n) as m eqn:Em.
    repeat split; intros s r H; simpl; rewrite Em in H; simpl in H;
      fuel_cases H IHv IHe IHm; exact H.
Qed.

Lemma parse_value_fuel n m s r :
  n <= m -> parse_value n s = Some r -> parse_value m s = Some r.
Proof.
  induction 1 as [| m _ IH]; intros H; [exact H |].
  apply parse_fuel_step, IH, H.
Qed.

Lemma literal_value_source : literal_value source_literal = Some json_text.
Proof. vm_compute. reflexivity. Qed.

Lemma parsed_literal_searchIndex : parsed_literal = Some searchIndex.
Proof. vm_compute. reflexivity. Qed.

(** X1: the literal of the first statement denotes a text that
    [JSON.parse] accepts, the value parsed is [searchIndex], and the parse
    gives this value with any fuel above the length of the text. *)
Theorem literal_parses_to_searchIndex :
  literal_value source_literal = Some json_text
  /\ JSON_parse json_text = Some searchIndex
  /\ (forall fuel, String.length json_text < fuel ->
        parse_value fuel json_text = Some (searchIndex, EmptyString)).
Proof.
  split; [exact literal_value_source |].
  split; [vm_compute; reflexivity |].
  intros fuel Hfuel.
  apply (parse_value_fuel (S (String.length json_text))); [exact Hfuel |].
  vm_compute. reflexivity.
Qed.

(** * The hand-over of the parsed value *)

Lemma script_handoff e : script e = handoff searchIndex e.
Proof. unfold script. rewrite parsed_literal_searchIndex. reflexivity. Qed.

Lemma get_set_property_same k v ps : get_property k (set_property k v ps) = Some v.
Proof.
  induction ps as [| [k' v'] ps IH]; simpl.
  - rewrite String.eqb_refl. reflexivity.
  - destruct (String.eqb k k') eqn:E; simpl; rewrite E; [reflexivity | exact IH].
Qed.

Lemma get_set_property_other k k' v ps :
  k' <> k -> get_property k' (set_property k v ps) = get_property k' ps.
Proof.
  intros Hne.
  assert (Hk : String.eqb k' k = false) by (apply String.eqb_neq; exact Hne).
  induction ps as [| [k0 v0] ps IH]; simpl.
  - rewrite Hk. reflexivity.
  - destruct (String.eqb k k0) eqn:E; simpl.
    + apply String.eqb_eq in E. subst k0. rewrite Hk. reflexivity.
    + destruct (String.eqb k' k0); [reflexivity | exact IH].
Qed.










Lemma set_property_twice k v ps :
  set_property k v (set_property k v ps) = set_property k v ps.
Proof.
  induction ps as [| [k' v'] ps IH]; simpl.
  - rewrite String.eqb_refl. reflexivity.
  - destruct (String.eqb k k') eqn:E; simpl; rewrite E; [reflexivity |].
    f_equal. exact IH.
Qed.

Lemma handoff_twice idx e :
  handoff idx {| env_window := env_window e; env_exports := exports_after (handoff idx e) |}
  = handoff idx e.
Proof.
  env_cases e; run_handoff; rewrite ?set_property_twice; reflexivity.
Qed.


(** * Further properties of the index *)

Lemma ordered_StronglySorted l :
  ordered l = true -> StronglySorted (fun a b => String.leb a b = true) l.
Proof.
  induction l as [| a t IH]; simpl; intros H; constructor.
  - apply IH. apply andb_true_iff in H. tauto.
  - apply andb_true_iff in H as [H _]. apply Forall_forall.
    now apply forallb_forall.
Qed.

(** X9: the rows are in non-decreasing byte order of their names: the name
    of a row is at most the name of every later row. *)
Theorem names_in_byte_order :
  StronglySorted (fun a b => String.leb a b = true) (map row_name rows).
Proof. apply ordered_StronglySorted. vm_compute. reflexivity. Qed.

(** X10: a row has kind 3, 11 or 18; it has no parent exactly when its kind
    is 3, and it has a signature exactly when its kind is 11. *)
Theorem row_kind_parent_signature r :
  In r rows ->
  (row_ty r = 3 \/ row_ty r = 11 \/ row_ty r = 18)
  /\ (row_ty r = 3 <-> row_parent r = 0)
  /\ (row_ty r = 11 <-> row_sig r <> None).
Proof.
  intros Hr.
  pose proof (rows_all
                (fun r => (Nat.eqb (row_ty r) 3 || Nat.eqb (row_ty r) 11
                           || Nat.eqb (row_ty r) 18)
                          && Bool.eqb (Nat.eqb (row_ty r) 3) (Nat.eqb (row_parent r) 0)
                          && Bool.eqb (Nat.eqb (row_ty r) 11) (has_signature r))
                ltac:(vm_compute; reflexivity) r Hr) as H.
  cbv beta in H. apply andb_true_iff in H as [H H3].
  apply andb_true_iff in H as [H1 H2].
  apply Bool.eqb_prop in H2, H3. split; [| split].
  - apply orb_true_iff in H1 as [H1 | H1];
      [apply orb_true_iff in H1 as [H1 | H1] |]; apply Nat.eqb_eq in H1; auto.
  - rewrite <- !Nat.eqb_eq, H2. tauto.
  - rewrite <- Nat.eqb_eq, H3. unfold has_signature.
    destruct (row_sig r); split; congruence.
Qed.

(** The statement above at [Real::arctan], row 22 of the index. *)
Lemma row_kind_parent_signature_arctan :
  (row_ty arctan_row = 3 \/ row_ty arctan_row = 11 \/ row_ty arctan_row = 18)
  /\ (row_ty arctan_row = 3 <-> row_parent arctan_row = 0)
  /\ (row_ty arctan_row = 11 <-> row_sig arctan_row <> None).
Proof.
  apply (row_kind_parent_signature arctan_row).
  apply (nth_error_In rows 22). vm_compute. reflexivity.
Defined.

(** X11: the parent position of a row, when it is not 0, points to an
    entry of the type table of kind 3 whose name is the name of a row of
    kind 3 without parent: every parent is a type the index documents. *)
Theorem parent_is_documented r :
  In r rows -> row_parent r <> 0 ->
  exists e, parent_entry r = Some e /\ path_ty e = 3
            /\ exists r', In r' rows /\ documents_type (path_name e) r' = true.
Proof.
  intros Hr Hp.
  pose proof (rows_all
                (fun r => Nat.eqb (row_parent r) 0
                          || match parent_entry r with
                             | Some e => Nat.eqb (path_ty e) 3
                                         && existsb (documents_type (path_name e)) rows
                             | None => false
                             end)
                ltac:(vm_compute; reflexivity) r Hr) as H.
  cbv beta in H. apply orb_true_iff in H as [H | H].
  - apply Nat.eqb_eq in H. contradiction.
  - destruct (parent_entry r) as [e |]; [| discriminate H].
    apply andb_true_iff in H as [H1 H2]. apply Nat.eqb_eq in H1.
    apply existsb_exists in H2. exists e. auto.
Qed.

(** The statement above at [Real::arctan], row 22 of the index. *)
Lemma parent_is_documented_arctan :
  exists e, parent_entry arctan_row = Some e /\ path_ty e = 3
            /\ exists r', In r' rows /\ documents_type (path_name e) r' = true.
Proof.
  apply (parent_is_documented arctan_row).
  - apply (nth_error_In rows 22). vm_compute. reflexivity.
  - simpl. discriminate.
Defined.


(** X13: the rows whose signature has [DomainError] as error side are ten
    operations of [Real]; and wherever a [Result<T, E>] occurs in a
    signature of the index, [E] is [DomainError] or [ConversionError]. *)
Theorem domain_error_operations :
  map (fun r => (parent_name r, row_name r))
      (filter (fun r => fails_with "DomainError" (row_signature r)) rows)
  = map (fun name => (Some "Real", name))
        ["arccos"; "arccosh"; "arcsin"; "arctanh"; "ln"; "log"; "logf"; "logi";
         "powf"; "sqrt"]
  /\ Forall (fun r =>
               Forall (fun a => a = T "DomainError" \/ a = T "ConversionError")
                      (sig_errors (row_signature r)))
            rows.
Proof.
  split; [vm_compute; reflexivity |].
  apply Forall_of_check
    with (check := fun r => forallb (fun a => rty_eqb a (T "DomainError")
                                              || rty_eqb a (T "ConversionError"))
                                    (sig_errors (row_signature r))).
  - intros r H. apply Forall_forall. intros a Ha.
    rewrite forallb_forall in H. specialize (H a Ha).
    apply orb_true_iff in H as [H | H]; apply rty_eqb_eq in H; auto.
  - vm_compute. reflexivity.
Qed.

(** X14: a row in whose signature a [Result<T, E>] occurs has parent
    [Real]: no operation recorded for [Complex], [Angle] or the two error
    types has an error side. *)
Theorem only_Real_is_fallible r :
  In r rows -> sig_errors (row_signature r) <> [] -> parent_name r = Some "Real".
Proof.
  intros Hr He.
  pose proof (rows_all
                (fun r => match sig_errors (row_signature r) with
                          | [] => true
                          | _ :: _ => has_parent "Real" r
                          end)
                ltac:(vm_compute; reflexivity) r Hr) as H.
  cbv beta in H. destruct (sig_errors (row_signature r)); [contradiction |].
  now apply opt_string_eqb_spec.
Qed.

(** The statement above at row 138, [try_from] with signature
    [Complex -> Result<Real, ConversionError>]. *)
Lemma only_Real_is_fallible_try_from :
  parent_name (nth 138 rows arctan_row) = Some "Real".
Proof.
  apply (only_Real_is_fallible (nth 138 rows arctan_row)).
  - apply nth_In. rewrite rows_length. repeat constructor.
  - vm_compute. discriminate.
Defined.

Lemma kind_name_dec (a b : nat * string) : {a = b} + {a <> b}.
Proof. decide equality; [apply string_dec | apply Nat.eq_dec]. Defined.


(** X16: with [Complex] as parent the index records [add], [sub], [mul]
    and [div] with signature [(Complex, Complex) -> Complex]; eighteen
    unary operations, [abs] among them, with [Complex -> Complex]; [norm]
    with [Complex -> Real]; and [is_real] and [is_imaginary] with
    [Complex -> bool]. *)
Theorem complex_operations :
  Forall (fun name =>
            signatures_of "Complex" name
            = [fn [T "Complex"; T "Complex"] [T "Complex"]])
         ["add"; "sub"; "mul"; "div"]
  /\ Forall (fun name =>
               signatures_of "Complex" name = [fn [T "Complex"] [T "Complex"]])
            ["abs"; "arccos"; "arccosh"; "arcsin"; "arcsinh"; "arctan"; "arctanh";
             "cos"; "cosh"; "exp"; "ln"; "neg"; "sin"; "sinh"; "sqrt"; "squared";
             "tan"; "tanh"]
  /\ signatures_of "Complex" "norm" = [fn [T "Complex"] [T "Real"]]
  /\ Forall (fun name => signatures_of "Complex" name = [fn [T "Complex"] [T "bool"]])
            ["is_real"; "is_imaginary"].
Proof.
  repeat apply conj;
    repeat (apply Forall_cons; [vm_compute; reflexivity |]);
    try apply Forall_nil.
  vm_compute. reflexivity.
Qed.

(** X17: [Real::from] is recorded eleven times: once for each of the ten
    primitive types [i32], [i64], [u16], [f32], [u64], [u8], [i8], [f64],
    [u32] and [i16], with signature [primitive -> Real], and once with no
    type on either side. *)
Theorem real_from_primitives :
  signatures_of "Real" "from"
  = (map (fun prim => fn [T prim] [T "Real"])
         ["i32"; "i64"; "u16"; "f32"; "u64"; "u8"; "i8"; "f64"; "u32"; "i16"]
     ++ [fn [] []])%list.
Proof. vm_compute. reflexivity. Qed.

(** X18: the rows of kind 18 are [I], [ONE] and [ZERO] of [Complex] and
    [ONE] and [ZERO] of [Real]; the description recorded for [Real::ONE]
    names [Real::new(0.0)] and the one recorded for [Real::ZERO] names
    [Real::new(1.0)]. *)
Theorem associated_constants :
  map (fun r => (parent_name r, row_name r))
      (filter (fun r => Nat.eqb (row_ty r) 18) rows)
  = [(Some "Complex", "I"); (Some "Real", "ONE"); (Some "Complex", "ONE");
     (Some "Real", "ZERO"); (Some "Complex", "ZERO")]
  /\ descriptions_of "Real" "ONE" = ["shortcut for describing Real::new(0.0)"]
  /\ descriptions_of "Real" "ZERO" = ["shortcut for describing Real::new(1.0)"].
Proof. repeat split; vm_compute; reflexivity. Qed.

(** X19: the signature of every function row resolves against the type
    table, to as many named inputs and outputs as the entry of [f]
    records. *)
Theorem every_signature_resolves r g :
  In r rows -> row_sig r = Some g ->
  exists ins out,
    row_signature r = Some (ins, out)
    /\ length ins = length (inputs g) /\ length out = length (output g).
Proof.
  intros Hr Hg. destruct (rows_resolve r g Hr Hg) as [[ins out] Hs].
  exists ins, out. split; [exact Hs |].
  unfold row_signature in Hs. rewrite Hg in Hs. cbv [bind resolve_sig] in Hs.
  destruct (mapM (resolve (idx_p hebrides)) (inputs g)) as [ins' |] eqn:Ei;
    [| discriminate Hs].
  destruct (mapM (resolve (idx_p hebrides)) (output g)) as [out' |] eqn:Eo;
    [| discriminate Hs].
  injection Hs as <- <-. split; eapply mapM_length; eassumption.
Qed.

(** The statement above at [Real::arctan], row 22 of the index. *)
Lemma every_signature_resolves_arctan :
  exists ins out,
    row_signature arctan_row = Some (ins, out)
    /\ length ins = 1 /\ length out = 1.
Proof.
  apply (every_signature_resolves arctan_row
           {| inputs := [Ty 1 []]; output := [Ty 3 []] |}).
  - apply (nth_error_In rows 22). vm_compute. reflexivity.
  - reflexivity.
Defined.
